(** * chatbot-backend/main.py: the Ollama relay service

    A shallow embedding of [main.py] and a verification of its request
    contract.  The module-level code (configuration, CORS set-up), the
    helper [call_ollama] and the two endpoints [health_check] and
    [chat_with_ai] are translated function by function.  The libraries the
    file calls (requests, FastAPI/Starlette, pydantic, python-dotenv) are
    represented by the part of their behaviour the file relies on; each such
    definition says which library routine it stands for. *)

From stdpp Require Import gmap strings list sorting pretty.

Local Open Scope Z_scope.
Local Set Warnings "-register-all".

(** ** Python values

    The objects that travel through [main.py] are JSON-shaped: the payload
    built for Ollama, the object returned by [response.json()], the request
    body and the endpoint results.  A [dict] keeps its items in insertion
    order, its keys being pairwise distinct.  A [str] is well-formed text.
    A [float] is carried by its [repr]: ["1.5"], and ["inf"], ["-inf"] or
    ["nan"] for the values [json.loads] makes of [1e400], [-1e400] or
    [NaN]. *)

Inductive value : Type :=
  | VNone
  | VBool (b : bool)
  | VInt (n : Z)
  | VFloat (repr : string)
  | VStr (s : string)
  | VList (items : list value)
  | VDict (items : list (string * value)).

(** [d.get(key)] on the items of a dict. *)
Fixpoint dict_get (items : list (string * value)) (key : string) : option value :=
  match items with
  | [] => None
  | (k, v) :: rest => if String.eqb k key then Some v else dict_get rest key
  end.

(** [math.isfinite(x)] for the float whose [repr] is given. *)
Definition finite_repr (repr : string) : bool :=
  negb (String.eqb repr "inf" || String.eqb repr "-inf" || String.eqb repr "nan").

(** Whether [json.dumps(v, allow_nan=False)] succeeds, as Starlette's
    [JSONResponse.render] calls it: it raises [ValueError] on a float that
    is not finite, anywhere in the value. *)
Fixpoint renderable (v : value) : bool :=
  match v with
  | VFloat repr => finite_repr repr
  | VList items => forallb renderable items
  | VDict items => forallb (fun kv => renderable (snd kv)) items
  | _ => true
  end.

(** [type(v).__name__] *)
Definition type_name (v : value) : string :=
  match v with
  | VNone => "NoneType"
  | VBool _ => "bool"
  | VInt _ => "int"
  | VFloat _ => "float"
  | VStr _ => "str"
  | VList _ => "list"
  | VDict _ => "dict"
  end.

(** ** Exceptions

    The classes [main.py] distinguishes in its [except] clauses.
    [RequestException] stands for [requests.exceptions.RequestException]
    and all its subclasses (ConnectionError, Timeout, HTTPError,
    JSONDecodeError, ...); [OtherException] for any further subclass of
    [Exception]. *)

Inductive exn : Type :=
  | RequestException (text : string)
  | KeyError (key : string)
  | TypeError (text : string)
  | HTTPException (status_code : Z) (detail : string)
  | OtherException (text : string).

(** [repr(s)] of a key without quotes, backslashes or control characters;
    the keys subscripted in [main.py] are the literals ["message"] and
    ["content"], and a [KeyError] raised elsewhere is taken to carry such
    a key. *)
Definition repr_key (s : string) : string := "'" +:+ s +:+ "'".

(** [str(e)].  A [KeyError] prints the repr of its key; Starlette's
    [HTTPException.__str__] is [f"{self.status_code}: {self.detail}"]. *)
Definition str (e : exn) : string :=
  match e with
  | RequestException text => text
  | KeyError key => repr_key key
  | TypeError text => text
  | HTTPException status_code detail => pretty status_code +:+ ": " +:+ detail
  | OtherException text => text
  end.

(** ** The outside world: requests *)

(** The arguments of one [requests.post(url, json=..., timeout=...)]. *)
Record post_call : Type := PostCall {
  post_url : string;
  post_json : value;
  post_timeout : Z
}.

(** What [response.json()] does with the body received. *)
Inductive json_body : Type :=
  | NotJSON (text : string)
  | JSON (v : value).

Record response : Type := Response {
  status_code : Z;
  reason : string;
  url : string;
  body : json_body
}.

(** How one POST ends: a [RequestException] raised by [requests.post]
    (connection refused, unreachable host, timeout, ...), a [KeyError]
    raised inside it, an exception [e] of any other class, given by
    [str(e)], or a response.  The call stands inside the [try] of
    [call_ollama], so the class of what it raises decides which [except]
    clause applies. *)
Inductive post_result : Type :=
  | TransportError (text : string)
  | UnexpectedError (text : string)
  | UnexpectedKeyError (key : string)
  | Responded (r : response).

(** ** A small monad for effects and exceptions

    The only effect of the service is the outbound POST; the state threaded
    through a handler is the log of the calls issued so far. *)

Inductive outcome (A : Type) : Type :=
  | Return (a : A)
  | Raise (e : exn).
Arguments Return {A} a.
Arguments Raise {A} e.

Definition io (A : Type) : Type := list post_call -> outcome A * list post_call.

Definition ret {A} (a : A) : io A := fun log => (Return a, log).

Definition raise {A} (e : exn) : io A := fun log => (Raise e, log).

Definition bind {A B} (m : io A) (k : A -> io B) : io B :=
  fun log =>
    match m log with
    | (Return a, log') => k a log'
    | (Raise e, log') => (Raise e, log')
    end.

(** [try: m  except ...:] where [handler e] is the body of the first clause
    whose class matches [e], and [None] when no clause matches (the
    exception propagates). *)
Definition try_except {A} (m : io A) (handler : exn -> option (io A)) : io A :=
  fun log =>
    match m log with
    | (Return a, log') => (Return a, log')
    | (Raise e, log') =>
        match handler e with
        | Some h => h log'
        | None => (Raise e, log')
        end
    end.

Notation "'do' x <- m ; k" := (bind m (fun x => k))
  (at level 10, x name, m at level 100, k at level 200).

(** [v[key]] for a string key. *)
Definition getitem (v : value) (key : string) : io value :=
  match v with
  | VDict items =>
      match dict_get items key with
      | Some x => ret x
      | None => raise (KeyError key)
      end
  | VList _ => raise (TypeError "list indices must be integers or slices, not str")
  | VStr _ => raise (TypeError "string indices must be integers, not 'str'")
  | _ => raise (TypeError ("'" +:+ type_name v +:+ "' object is not subscriptable"))
  end.

(** [Response.raise_for_status] of requests: an [HTTPError] for a status in
    400..599, nothing otherwise. *)
Definition raise_for_status (r : response) : io unit :=
  if (400 <=? status_code r) && (status_code r <? 500) then
    raise (RequestException
      (pretty (status_code r) +:+ " Client Error: " +:+ reason r +:+ " for url: " +:+ url r))
  else if (500 <=? status_code r) && (status_code r <? 600) then
    raise (RequestException
      (pretty (status_code r) +:+ " Server Error: " +:+ reason r +:+ " for url: " +:+ url r))
  else ret tt.

(** [Response.json] of requests: the decoded body, or
    [requests.exceptions.JSONDecodeError], a [RequestException]. *)
Definition response_json (r : response) : io value :=
  match body r with
  | JSON v => ret v
  | NotJSON text => raise (RequestException text)
  end.

(** ** Configuration (section 4 of [main.py]) *)

Record config : Type := Config {
  OLLAMA_URL : string;
  OLLAMA_MODEL : string
}.

(** [os.getenv(key, default)] *)
Definition getenv (environ : gmap string string) (key default : string) : string :=
  match environ !! key with
  | Some v => v
  | None => default
  end.

(** [load_dotenv()]: the bindings of the [.env] file are added to the
    environment; a variable that is already set keeps its value. *)
Definition load_dotenv (dotenv environ : gmap string string) : gmap string string :=
  environ ∪ dotenv.

(** The module-level assignments, run once when the module is imported. *)
Definition module_config (dotenv environ : gmap string string) : config :=
  let environ := load_dotenv dotenv environ in
  {| OLLAMA_URL := getenv environ "OLLAMA_URL" "http://localhost:11434";
     OLLAMA_MODEL := getenv environ "OLLAMA_MODEL" "qwen2.5" |}.

(** ** The request model (section 3 of [main.py]) *)

Record ChatInput : Type := { user_message : string }.

(** ** The handlers *)

(** The default of [call_ollama]'s parameter [system_message]; a call that
    omits the argument, as the one in [chat_with_ai] does, passes it. *)
Definition default_system_message : string := "You are a helpful assistant.".

Section Service.

(** The configuration fixed at start-up and the upstream server. *)
Variable cfg : config.
Variable upstream : post_call -> post_result.

(** [requests.post]: the call is logged and the upstream decides how it
    ends. *)
Definition requests_post (url : string) (json : value) (timeout : Z) : io response :=
  fun log =>
    let call := {| post_url := url; post_json := json; post_timeout := timeout |} in
    match upstream call with
    | TransportError text => (Raise (RequestException text), log ++ [call])
    | UnexpectedError text => (Raise (OtherException text), log ++ [call])
    | UnexpectedKeyError key => (Raise (KeyError key), log ++ [call])
    | Responded r => (Return r, log ++ [call])
    end.

Definition ollama_payload (prompt system_message : string) : value :=
  VDict [
    ("model", VStr (OLLAMA_MODEL cfg));
    ("messages", VList [
       VDict [("role", VStr "system"); ("content", VStr system_message)];
       VDict [("role", VStr "user"); ("content", VStr prompt)]
     ]);
    ("stream", VBool false)
  ].

Definition call_ollama (prompt system_message : string) : io value :=
  try_except
    (let payload := ollama_payload prompt system_message in
     do response <- requests_post (OLLAMA_URL cfg +:+ "/api/chat") payload 60;
     do _ <- raise_for_status response;
     do result <- response_json response;
     do message <- getitem result "message";
     getitem message "content")
    (fun e =>
       match e with
       | RequestException _ =>
           Some (raise (HTTPException 503 ("Ollama service unavailable: " +:+ str e)))
       | KeyError _ =>
           Some (raise (HTTPException 502
                          ("Unexpected response format from Ollama: " +:+ str e)))
       | _ => None
       end).

Definition health_check : io value :=
  ret (VDict [("status", VStr "ok");
              ("model", VStr (OLLAMA_MODEL cfg));
              ("ollama_url", VStr (OLLAMA_URL cfg))]).

(** Every class of [exn] is a subclass of [Exception], so the single
    clause [except Exception as e] handles all of them. *)
Definition chat_with_ai (input_data : ChatInput) : io value :=
  try_except
    (do bot_response <- call_ollama (user_message input_data) default_system_message;
     ret (VDict [("bot_response", bot_response)]))
    (fun e => Some (raise (HTTPException 500 (str e)))).

End Service.

(** ** The framework around the handlers (FastAPI) *)

Record http_response : Type := HttpResponse {
  http_status : Z;
  http_content : value
}.

(** What FastAPI sends for the result of an endpoint: the returned object as
    JSON with status 200 when it can be rendered; for an [HTTPException]
    its status code and [{"detail": detail}]; for any other exception, and
    for the [ValueError] of rendering a returned object that holds a float
    which is not finite, the server error response, the plain text
    [Internal Server Error] with status 500. *)
Definition respond (r : outcome value) : http_response :=
  match r with
  | Return v =>
      if renderable v then {| http_status := 200; http_content := v |}
      else {| http_status := 500; http_content := VStr "Internal Server Error" |}
  | Raise (HTTPException status_code detail) =>
      {| http_status := status_code; http_content := VDict [("detail", VStr detail)] |}
  | Raise _ => {| http_status := 500; http_content := VStr "Internal Server Error" |}
  end.

(** A route: the response sent, and the log of outbound calls after it. *)
Definition route : Type := list post_call -> http_response * list post_call.

Definition endpoint (handler : io value) : route :=
  fun log => let '(r, log') := handler log in (respond r, log').

Section Routes.

Variable cfg : config.
Variable upstream : post_call -> post_result.

(** pydantic's treatment of a [user_message] that is present but is not a
    string ([None]: the value is refused; [Some s]: it is converted to
    [s]), and the error report FastAPI puts under ["detail"] of a 422
    response.  Both depend on the pydantic version and on nothing in
    [main.py]. *)
Variable str_coercion : value -> option string.
Variable validation_errors : value -> value.

(** Validation of the request body against [ChatInput]: the body is an
    object whose required field [user_message] is a [str]; other fields
    are ignored. *)
Definition validate_ChatInput (request_body : value) : option ChatInput :=
  match request_body with
  | VDict items =>
      match dict_get items "user_message" with
      | Some (VStr s) => Some {| user_message := s |}
      | Some v =>
          match str_coercion v with
          | Some s => Some {| user_message := s |}
          | None => None
          end
      | None => None
      end
  | _ => None
  end.

(** [GET /] *)
Definition get_root : route := endpoint (health_check cfg).

(** [POST /chat]: the handler runs only on a body that validates. *)
Definition post_chat (request_body : value) : route :=
  match validate_ChatInput request_body with
  | Some input_data => endpoint (chat_with_ai cfg upstream input_data)
  | None =>
      fun log =>
        ({| http_status := 422;
            http_content := VDict [("detail", validation_errors request_body)] |}, log)
  end.

End Routes.

(** ** Cross-origin policy (section 2 of [main.py])

    [main.py] only configures Starlette's [CORSMiddleware]; what the
    configuration means is decided by the middleware.  The module below
    follows the middleware's [__init__], [is_allowed_origin],
    [preflight_response] and [send], for the options [main.py] passes (the
    others keep their defaults: no origin regex, no exposed headers,
    [max_age=600]).  Header names are written in lower case, as they appear
    on the wire. *)

Module CORS.

Definition headers : Type := list (string * string).

Fixpoint header_get (hs : headers) (name : string) : option string :=
  match hs with
  | [] => None
  | (k, v) :: rest => if String.eqb k name then Some v else header_get rest name
  end.

Fixpoint header_del (hs : headers) (name : string) : headers :=
  match hs with
  | [] => []
  | (k, v) :: rest =>
      if String.eqb k name then header_del rest name else (k, v) :: header_del rest name
  end.

(** [hs[name] = v]: the first entry of that name is replaced and any
    duplicate removed; a new name is appended. *)
Fixpoint header_set (hs : headers) (name v : string) : headers :=
  match hs with
  | [] => [(name, v)]
  | (k, w) :: rest =>
      if String.eqb k name then (name, v) :: header_del rest name
      else (k, w) :: header_set rest name v
  end.

(** [hs.update(new)] *)
Definition header_update (hs new : headers) : headers :=
  foldl (fun acc kv => header_set acc kv.1 kv.2) hs new.

(** [x in xs] for a list of strings. *)
Definition contains (xs : list string) (x : string) : bool :=
  existsb (String.eqb x) xs.

(** [s.lower()], [s.strip()] and [s.split(",")] on ASCII text. *)
Definition ascii_lower (c : Ascii.ascii) : Ascii.ascii :=
  let n := Ascii.nat_of_ascii c in
  if ((65 <=? n) && (n <=? 90))%nat then Ascii.ascii_of_nat (n + 32) else c.

Fixpoint lower (s : string) : string :=
  match s with
  | EmptyString => EmptyString
  | String c rest => String (ascii_lower c) (lower rest)
  end.

Definition is_space (c : Ascii.ascii) : bool :=
  let n := Ascii.nat_of_ascii c in
  (((9 <=? n) && (n <=? 13)) || ((28 <=? n) && (n <=? 32)))%nat.

Fixpoint lstrip (s : string) : string :=
  match s with
  | EmptyString => EmptyString
  | String c rest => if is_space c then lstrip rest else s
  end.

Definition strip (s : string) : string :=
  String.rev (lstrip (String.rev (lstrip s))).

(** The character [,] *)
Definition comma : Ascii.ascii := Ascii.ascii_of_nat 44.

Fixpoint split (sep : Ascii.ascii) (s : string) : list string :=
  match s with
  | EmptyString => [EmptyString]
  | String c rest =>
      if Ascii.eqb c sep then EmptyString :: split sep rest
      else match split sep rest with
           | piece :: pieces => String c piece :: pieces
           | [] => [String c EmptyString]
           end
  end.

Definition ALL_METHODS : list string :=
  ["DELETE"; "GET"; "HEAD"; "OPTIONS"; "PATCH"; "POST"; "PUT"].

Definition SAFELISTED_HEADERS : list string :=
  ["Accept"; "Accept-Language"; "Content-Language"; "Content-Type"].

(** The keyword arguments of [app.add_middleware(CORSMiddleware, ...)]. *)
Record options : Type := Options {
  allow_origins : list string;
  allow_credentials : bool;
  allow_methods : list string;
  allow_headers : list string
}.

(** The answer to a preflight request: a [PlainTextResponse] with this
    status, text and [headers=] argument. *)
Record preflight : Type := Preflight {
  preflight_status : Z;
  preflight_text : string;
  preflight_response_headers : headers
}.

Section Middleware.

Variable self : options.

(** [__init__] *)
Definition methods : list string :=
  if contains (allow_methods self) "*" then ALL_METHODS else allow_methods self.

Definition allow_all_origins : bool := contains (allow_origins self) "*".

Definition allow_all_headers : bool := contains (allow_headers self) "*".

Definition preflight_explicit_allow_origin : bool :=
  negb allow_all_origins || allow_credentials self.

Definition simple_headers : headers :=
  (if allow_all_origins then [("access-control-allow-origin", "*")] else [])
  ++ (if allow_credentials self then [("access-control-allow-credentials", "true")] else []).

Definition sorted_allow_headers : list string :=
  merge_sort String.le (remove_dups (SAFELISTED_HEADERS ++ allow_headers self)).

Definition preflight_headers : headers :=
  (if preflight_explicit_allow_origin then [("vary", "Origin")]
   else [("access-control-allow-origin", "*")])
  ++ [("access-control-allow-methods", String.concat ", " methods);
      ("access-control-max-age", "600")]
  ++ (if negb allow_all_headers
      then [("access-control-allow-headers", String.concat ", " sorted_allow_headers)]
      else [])
  ++ (if allow_credentials self then [("access-control-allow-credentials", "true")] else []).

Definition lowered_allow_headers : list string := map lower sorted_allow_headers.

Definition is_allowed_origin (origin : string) : bool :=
  allow_all_origins || contains (allow_origins self) origin.

(** [preflight_response], for the request headers [Origin],
    [Access-Control-Request-Method] and (when present)
    [Access-Control-Request-Headers]. *)
Definition preflight_response
    (requested_origin requested_method : string)
    (requested_headers : option string) : preflight :=
  let hs := preflight_headers in
  let '(hs, failures) :=
    if is_allowed_origin requested_origin then
      ((if preflight_explicit_allow_origin
        then header_set hs "access-control-allow-origin" requested_origin
        else hs), [])
    else (hs, ["origin"]) in
  let failures :=
    if contains methods requested_method then failures else failures ++ ["method"] in
  let '(hs, failures) :=
    match requested_headers with
    | Some requested =>
        if allow_all_headers then
          (header_set hs "access-control-allow-headers" requested, failures)
        else if forallb (fun h => contains lowered_allow_headers (strip h))
                        (map lower (split comma requested))
             then (hs, failures)
             else (hs, failures ++ ["headers"])
    | None => (hs, failures)
    end in
  match failures with
  | [] => {| preflight_status := 200; preflight_text := "OK";
             preflight_response_headers := hs |}
  | _ => {| preflight_status := 400;
            preflight_text := "Disallowed CORS " +:+ String.concat ", " failures;
            preflight_response_headers := hs |}
  end.

(** [headers.add_vary_header("Origin")] *)
Definition add_vary_header (hs : headers) (vary : string) : headers :=
  match header_get hs "vary" with
  | Some existing => header_set hs "vary" (existing +:+ ", " +:+ vary)
  | None => header_set hs "vary" vary
  end.

Definition allow_explicit_origin (hs : headers) (origin : string) : headers :=
  add_vary_header (header_set hs "access-control-allow-origin" origin) "Origin".

(** [send]: the headers of the response to an actual (non-preflight)
    request with an [Origin] header, from the headers [hs] the
    application produced. *)
Definition send (hs : headers) (origin : string) (has_cookie : bool) : headers :=
  let hs := header_update hs simple_headers in
  if allow_all_origins && has_cookie then allow_explicit_origin hs origin
  else if negb allow_all_origins && is_allowed_origin origin
       then allow_explicit_origin hs origin
       else hs.

End Middleware.

End CORS.

(** The list and the middleware options written in [main.py]. *)
Definition origins : list string :=
  ["http://localhost:5173";
   "http://localhost:3000"].

Definition app_cors : CORS.options :=
  {| CORS.allow_origins := origins;
     CORS.allow_credentials := true;
     CORS.allow_methods := ["*"];
     CORS.allow_headers := ["*"] |}.


(** * The vocabulary of the properties *)

(** The one POST that [call_ollama] issues for a prompt. *)
Definition ollama_call (cfg : config) (prompt system_message : string) : post_call :=
  {| post_url := OLLAMA_URL cfg +:+ "/api/chat";
     post_json := ollama_payload cfg prompt system_message;
     post_timeout := 60 |}.

(** The object a client posts to [/chat]. *)
Definition chat_body (s : string) : value := VDict [("user_message", VStr s)].

(** The exceptions that can leave [call_ollama]: the two [HTTPException]s
    of its [except] clauses, a [TypeError] from subscripting something that
    is not a dict, or an exception of [requests.post] that is neither a
    [RequestException] nor a [KeyError]. *)
Definition leaves_call_ollama (e : exn) : Prop :=
  match e with
  | HTTPException status_code _ => status_code = 503 \/ status_code = 502
  | TypeError _ | OtherException _ => True
  | RequestException _ | KeyError _ => False
  end.

(** Decides the two range tests of [raise_for_status] from bounds on the
    status code. *)
Ltac status_tests :=
  repeat match goal with
    | |- context [(?a <=? ?b)] => destruct (Z.leb_spec a b); try lia
    | |- context [(?a <? ?b)] => destruct (Z.ltb_spec a b); try lia
    end;
  cbn [andb].

(** The upstream failures that [call_ollama] reports as "unavailable": the
    POST fails at transport level with some error text, or it is answered
    with a status that [raise_for_status] turns into an [HTTPError] with
    that text. *)
Inductive upstream_failure : post_result -> string -> Prop :=
  | failure_transport text :
      upstream_failure (TransportError text) text
  | failure_client_error r :
      400 <= status_code r < 500 ->
      upstream_failure (Responded r)
        (pretty (status_code r) +:+ " Client Error: " +:+ reason r +:+ " for url: " +:+ url r)
  | failure_server_error r :
      500 <= status_code r < 600 ->
      upstream_failure (Responded r)
        (pretty (status_code r) +:+ " Server Error: " +:+ reason r +:+ " for url: " +:+ url r).

(** A decoded body that lacks [message], or whose [message] object lacks
    [content]; the second argument is the missing key. *)
Inductive missing_field : value -> string -> Prop :=
  | missing_message items :
      dict_get items "message" = None ->
      missing_field (VDict items) "message"
  | missing_content items fields :
      dict_get items "message" = Some (VDict fields) ->
      dict_get fields "content" = None ->
      missing_field (VDict items) "content".

(** [n] successive requests to a route, each starting from the log the
    previous one left. *)
Fixpoint invocations (n : nat) (r : route) (log : list post_call)
    : list http_response * list post_call :=
  match n with
  | O => ([], log)
  | S n' =>
      let '(first, log') := r log in
      let '(others, log'') := invocations n' r log' in
      (first :: others, log'')
  end.

(** The record [health_check] reports. *)
Definition health_record (cfg : config) : value :=
  VDict [("status", VStr "ok");
         ("model", VStr (OLLAMA_MODEL cfg));
         ("ollama_url", VStr (OLLAMA_URL cfg))].

(** ** Concrete settings *)

(** A service started with an empty environment, an upstream that refuses
    the connection, upstreams that answer 200 with a given JSON value, and
    a pydantic that converts nothing and reports a missing field. *)
Definition default_config : config := module_config ∅ ∅.

Definition refuse_connection : post_call -> post_result :=
  fun _ => TransportError "Connection refused".

Definition answer_json (v : value) : post_call -> post_result :=
  fun call =>
    Responded {| status_code := 200; reason := "OK"; url := post_url call; body := JSON v |}.

Definition strict_str : value -> option string := fun _ => None.

Definition field_required : value -> value :=
  fun _ => VList [VDict [("type", VStr "missing");
                         ("loc", VList [VStr "body"; VStr "user_message"]);
                         ("msg", VStr "Field required")]].

Definition llama3_environ : gmap string string := {[ "OLLAMA_MODEL" := "llama3" ]}.

(** The payload sent for the message ["hi"] under the default
    configuration. *)
Definition hi_call : post_call :=
  {| post_url := "http://localhost:11434/api/chat";
     post_json :=
       VDict [("model", VStr "qwen2.5");
              ("messages",
               VList [VDict [("role", VStr "system");
                             ("content", VStr "You are a helpful assistant.")];
                      VDict [("role", VStr "user"); ("content", VStr "hi")]]);
              ("stream", VBool false)];
     post_timeout := 60 |}.

(** ** Further vocabulary: shapes, sessions, the application as served *)

(** [isinstance(v, dict)] *)
Definition is_dict (v : value) : bool :=
  match v with
  | VDict _ => true
  | _ => false
  end.

(** A decoded body on which one of the two subscripts of [call_ollama] is
    applied to something that is not a dict: the body itself, or the value
    of its [message]. *)
Inductive subscripts_non_dict : value -> Prop :=
  | body_not_dict result :
      is_dict result = false ->
      subscripts_non_dict result
  | message_not_dict items message :
      dict_get items "message" = Some message ->
      is_dict message = false ->
      subscripts_non_dict (VDict items).

(** A client session: requests served one after the other, each route
    starting from the log the previous one left. *)
Fixpoint session (requests : list route) (log : list post_call)
    : list http_response * list post_call :=
  match requests with
  | [] => ([], log)
  | r :: rest =>
      let '(first, log') := r log in
      let '(others, log'') := session rest log' in
      (first :: others, log'')
  end.

(** What goes out on the wire: JSON from the application, plain text from
    the middleware's own preflight answer. *)
Inductive content : Type :=
  | JSONContent (v : value)
  | PlainText (text : string).

Record served : Type := Served {
  served_status : Z;
  served_headers : CORS.headers;
  served_content : content
}.

(** ["name" in request_headers] *)
Definition has_header (hs : CORS.headers) (name : string) : bool :=
  match CORS.header_get hs name with
  | Some _ => true
  | None => false
  end.

(** [CORSMiddleware.__call__] around an application route: a request
    without [Origin] goes to the application untouched; a preflight
    ([OPTIONS] with [Access-Control-Request-Method]) is answered by the
    middleware and the application does not run; any other request runs the
    application, whose response headers pass through [send].
    [response_headers] gives the headers the framework puts on the
    application's response. *)
Definition cors_call (self : CORS.options)
    (response_headers : http_response -> CORS.headers)
    (method : string) (request_headers : CORS.headers) (app : route)
    : list post_call -> served * list post_call :=
  fun log =>
    match CORS.header_get request_headers "origin" with
    | None =>
        let '(r, log') := app log in
        ({| served_status := http_status r;
            served_headers := response_headers r;
            served_content := JSONContent (http_content r) |}, log')
    | Some origin =>
        if String.eqb method "OPTIONS"
           && has_header request_headers "access-control-request-method"
        then
          let answer :=
            CORS.preflight_response self origin
              (default "" (CORS.header_get request_headers "access-control-request-method"))
              (CORS.header_get request_headers "access-control-request-headers") in
          ({| served_status := CORS.preflight_status answer;
              served_headers := CORS.preflight_response_headers answer;
              served_content := PlainText (CORS.preflight_text answer) |}, log)
        else
          let '(r, log') := app log in
          ({| served_status := http_status r;
              served_headers :=
                CORS.send self (response_headers r) origin
                  (has_header request_headers "cookie");
              served_content := JSONContent (http_content r) |}, log')
    end.

(** ** Further concrete settings *)

(** Upstreams that fail inside [requests.post] with something that is not a
    [RequestException] (one of them with a [KeyError]), that answer with a
    given status and JSON value, and that answer 200 with a body that is
    not JSON. *)
Definition crash_in_post : post_call -> post_result :=
  fun _ => UnexpectedError "maximum recursion depth exceeded".

Definition key_error_in_post : post_call -> post_result :=
  fun _ => UnexpectedKeyError "model".

Definition answer_status_json (status : Z) (v : value) : post_call -> post_result :=
  fun call =>
    Responded {| status_code := status; reason := ""; url := post_url call; body := JSON v |}.

Definition answer_html : post_call -> post_result :=
  fun call =>
    Responded {| status_code := 200; reason := "OK"; url := post_url call;
                 body := NotJSON "Expecting value: line 1 column 1 (char 0)" |}.

(** An environment that sets both variables, the base URL with a slash at
    its end, and a [.env] file that names another server and another
    model. *)
Definition server_environ : gmap string string :=
  {[ "OLLAMA_URL" := "http://gpu-box:11434/"; "OLLAMA_MODEL" := "phi3" ]}.

Definition dotenv_file : gmap string string :=
  {[ "OLLAMA_URL" := "http://ollama:11434"; "OLLAMA_MODEL" := "mistral" ]}.

(** Response headers of a JSON answer, and the request headers of a
    browser page served from another site. *)
Definition json_headers : http_response -> CORS.headers :=
  fun _ => [("content-type", "application/json")].

Definition foreign_page : CORS.headers :=
  [("content-type", "application/json"); ("origin", "http://evil.example")].

(** * Properties *)

(** ** The outbound call *)

Section OutboundCall.

Variable cfg : config.
Variable upstream : post_call -> post_result.

Implicit Types (prompt system_message : string) (log : list post_call).

Lemma raise_for_status_ok (r : response) log :
  status_code r < 400 \/ 600 <= status_code r ->
  raise_for_status r log = (Return tt, log).
Proof. intros H. unfold raise_for_status. status_tests; reflexivity. Qed.

(** [call_ollama] once the POST has been answered by a response. *)
Lemma call_ollama_responded prompt system_message log r :
  upstream (ollama_call cfg prompt system_message) = Responded r ->
  call_ollama cfg upstream prompt system_message log
  = try_except
      (do _ <- raise_for_status r;
       do result <- response_json r;
       do message <- getitem result "message";
       getitem message "content")
      (fun e =>
         match e with
         | RequestException _ =>
             Some (raise (HTTPException 503 ("Ollama service unavailable: " +:+ str e)))
         | KeyError _ =>
             Some (raise (HTTPException 502
                            ("Unexpected response format from Ollama: " +:+ str e)))
         | _ => None
         end)
      (log ++ [ollama_call cfg prompt system_message]).
Proof.
  intros H. unfold call_ollama, try_except, bind at 1, requests_post.
  fold (ollama_call cfg prompt system_message). rewrite H. reflexivity.
Qed.

Lemma call_ollama_transport_error prompt system_message log text :
  upstream (ollama_call cfg prompt system_message) = TransportError text ->
  call_ollama cfg upstream prompt system_message log
  = (Raise (HTTPException 503 ("Ollama service unavailable: " +:+ text)),
     log ++ [ollama_call cfg prompt system_message]).
Proof.
  intros H. unfold call_ollama, try_except, bind, requests_post.
  fold (ollama_call cfg prompt system_message). rewrite H. reflexivity.
Qed.

(** Whatever the upstream does, [call_ollama] appends exactly its one
    call to the log. *)
Lemma call_ollama_log prompt system_message log :
  (call_ollama cfg upstream prompt system_message log).2
  = log ++ [ollama_call cfg prompt system_message].
Proof.
  unfold call_ollama, try_except, bind, requests_post, raise_for_status,
    response_json, getitem, raise, ret.
  fold (ollama_call cfg prompt system_message).
  destruct (upstream _) as [text|text|key|r]; [reflexivity..|].
  destruct (_ && _); [reflexivity|].
  destruct (_ && _); [reflexivity|].
  destruct (body r) as [text|result]; [reflexivity|].
  destruct result; try reflexivity.
  destruct (dict_get _ _) as [message|]; [|reflexivity].
  destruct message; try reflexivity.
  destruct (dict_get _ _); reflexivity.
Qed.

Lemma call_ollama_raises prompt system_message log :
  match (call_ollama cfg upstream prompt system_message log).1 with
  | Return _ => True
  | Raise e => leaves_call_ollama e
  end.
Proof.
  unfold call_ollama, try_except, bind, requests_post, raise_for_status,
    response_json, getitem, raise, ret.
  destruct (upstream _) as [text|text|key|r]; cbn; auto.
  destruct (_ && _); cbn; auto.
  destruct (_ && _); cbn; auto.
  destruct (body r) as [text|result]; cbn; auto.
  destruct result; cbn; auto.
  destruct (dict_get _ _) as [message|]; cbn; auto.
  destruct message; cbn; auto.
  destruct (dict_get _ _); cbn; auto.
Qed.

(** The blanket [except Exception] of [chat_with_ai], in one equation: a
    value returned by [call_ollama] is wrapped into the reply, and any
    exception [e] it raises is replaced by [HTTPException(500, str(e))]. *)
Lemma chat_with_ai_unfold (input_data : ChatInput) log :
  chat_with_ai cfg upstream input_data log
  = match call_ollama cfg upstream (user_message input_data) default_system_message log with
    | (Return bot_response, log') => (Return (VDict [("bot_response", bot_response)]), log')
    | (Raise e, log') => (Raise (HTTPException 500 (str e)), log')
    end.
Proof.
  unfold chat_with_ai, try_except, bind, raise, ret.
  destruct (call_ollama _ _ _ _ log) as [[v|e] log']; reflexivity.
Qed.

Lemma chat_with_ai_log (input_data : ChatInput) log :
  (chat_with_ai cfg upstream input_data log).2
  = log ++ [ollama_call cfg (user_message input_data) default_system_message].
Proof.
  pose proof (call_ollama_log (user_message input_data) default_system_message log) as H.
  rewrite chat_with_ai_unfold.
  destruct (call_ollama _ _ _ _ log) as [[v|e] log']; exact H.
Qed.

End OutboundCall.

(** ** The [/chat] endpoint *)

Section ChatEndpoint.

Variable cfg : config.
Variable upstream : post_call -> post_result.
Variable str_coercion : value -> option string.
Variable validation_errors : value -> value.

Implicit Types (s : string) (log : list post_call).

Lemma validate_chat_body s :
  validate_ChatInput str_coercion (chat_body s) = Some {| user_message := s |}.
Proof. reflexivity. Qed.

Lemma post_chat_valid (request_body : value) (input_data : ChatInput) log :
  validate_ChatInput str_coercion request_body = Some input_data ->
  post_chat cfg upstream str_coercion validation_errors request_body log
  = (respond (chat_with_ai cfg upstream input_data log).1,
     log ++ [ollama_call cfg (user_message input_data) default_system_message]).
Proof.
  intros H. unfold post_chat, endpoint. rewrite H.
  pose proof (chat_with_ai_log cfg upstream input_data log) as Hlog.
  destruct (chat_with_ai _ _ _ log) as [r log']. simpl in *. by rewrite Hlog.
Qed.

Lemma call_ollama_upstream_failure s system_message log text :
  upstream_failure (upstream (ollama_call cfg s system_message)) text ->
  call_ollama cfg upstream s system_message log
  = (Raise (HTTPException 503 ("Ollama service unavailable: " +:+ text)),
     log ++ [ollama_call cfg s system_message]).
Proof.
  intros H. remember (upstream (ollama_call cfg s system_message)) as res eqn:Hres.
  symmetry in Hres. destruct H as [text|r Hst|r Hst].
  - by apply call_ollama_transport_error.
  - rewrite (call_ollama_responded _ _ _ _ _ _ Hres).
    unfold try_except, bind, raise_for_status, raise. status_tests. reflexivity.
  - rewrite (call_ollama_responded _ _ _ _ _ _ Hres).
    unfold try_except, bind, raise_for_status, raise. status_tests. reflexivity.
Qed.

Lemma call_ollama_missing_field s system_message log r result key :
  upstream (ollama_call cfg s system_message) = Responded r ->
  200 <= status_code r < 300 ->
  body r = JSON result ->
  missing_field result key ->
  call_ollama cfg upstream s system_message log
  = (Raise (HTTPException 502
              ("Unexpected response format from Ollama: '" +:+ key +:+ "'")),
     log ++ [ollama_call cfg s system_message]).
Proof.
  intros Hup Hst Hbody Hmiss. rewrite (call_ollama_responded _ _ _ _ _ _ Hup).
  unfold try_except, bind. rewrite raise_for_status_ok by lia.
  unfold response_json. rewrite Hbody. unfold ret, getitem.
  destruct Hmiss as [items Hm|items fields Hm Hc].
  - rewrite Hm. reflexivity.
  - rewrite Hm. unfold ret. rewrite Hc. reflexivity.
Qed.

Lemma call_ollama_content s system_message log r items fields content :
  upstream (ollama_call cfg s system_message) = Responded r ->
  200 <= status_code r < 300 ->
  body r = JSON (VDict items) ->
  dict_get items "message" = Some (VDict fields) ->
  dict_get fields "content" = Some content ->
  call_ollama cfg upstream s system_message log
  = (Return content, log ++ [ollama_call cfg s system_message]).
Proof.
  intros Hup Hst Hbody Hm Hc. rewrite (call_ollama_responded _ _ _ _ _ _ Hup).
  unfold try_except, bind. rewrite raise_for_status_ok by lia.
  unfold response_json. rewrite Hbody. unfold ret, getitem.
  rewrite Hm. unfold ret. rewrite Hc. reflexivity.
Qed.

(** C1 (what the code does where the claim asks for 503).  When the POST
    fails at transport level, or is answered with a 4xx or 5xx status,
    [call_ollama] raises [HTTPException(503, "Ollama service unavailable:
    <error text>")], but [chat_with_ai] catches it and the endpoint
    answers with status 500; the 503 and the message survive only inside
    the detail string. *)
Theorem chat_upstream_failure_answers_500 s log text :
  upstream_failure (upstream (ollama_call cfg s default_system_message)) text ->
  call_ollama cfg upstream s default_system_message log
  = (Raise (HTTPException 503 ("Ollama service unavailable: " +:+ text)),
     log ++ [ollama_call cfg s default_system_message])
  /\ post_chat cfg upstream str_coercion validation_errors (chat_body s) log
     = ({| http_status := 500;
           http_content :=
             VDict [("detail", VStr ("503: Ollama service unavailable: " +:+ text))] |},
        log ++ [ollama_call cfg s default_system_message]).
Proof.
  intros H. pose proof (call_ollama_upstream_failure _ _ log _ H) as Hcall.
  split; [exact Hcall|].
  rewrite (post_chat_valid _ _ _ (validate_chat_body s)).
  rewrite chat_with_ai_unfold. cbn [user_message]. rewrite Hcall. reflexivity.
Qed.

(** C2 (what the code does where the claim asks for 502).  When the
    upstream answers 2xx with a JSON object that lacks [message], or whose
    [message] object lacks [content], [call_ollama] raises
    [HTTPException(502, ...)] naming the missing key, but the endpoint
    answers with status 500. *)
Theorem chat_missing_field_answers_500 s log r result key :
  upstream (ollama_call cfg s default_system_message) = Responded r ->
  200 <= status_code r < 300 ->
  body r = JSON result ->
  missing_field result key ->
  call_ollama cfg upstream s default_system_message log
  = (Raise (HTTPException 502
              ("Unexpected response format from Ollama: '" +:+ key +:+ "'")),
     log ++ [ollama_call cfg s default_system_message])
  /\ post_chat cfg upstream str_coercion validation_errors (chat_body s) log
     = ({| http_status := 500;
           http_content :=
             VDict [("detail",
                     VStr ("502: Unexpected response format from Ollama: '" +:+ key +:+ "'"))] |},
        log ++ [ollama_call cfg s default_system_message]).
Proof.
  intros Hup Hst Hbody Hmiss.
  pose proof (call_ollama_missing_field _ _ log _ _ _ Hup Hst Hbody Hmiss) as Hcall.
  split; [exact Hcall|].
  rewrite (post_chat_valid _ _ _ (validate_chat_body s)).
  rewrite chat_with_ai_unfold. cbn [user_message]. rewrite Hcall. reflexivity.
Qed.

(** C3.  Any exception raised inside [call_ollama], and so each of its
    two [HTTPException]s (status 503 or 502, the only ones it raises), is
    caught by the [except Exception] of [chat_with_ai] and replaced by an
    [HTTPException] with status 500 whose detail is [str] of the original,
    which for an [HTTPException] reads ["<status code>: <detail>"].
    Hence the handler answers with status 200 or 500 only, and the route
    with 200, 500 or the validation error 422: never 502 or 503. *)
Theorem chat_never_answers_502_or_503 (input_data : ChatInput) (request_body : value) log :
  (chat_with_ai cfg upstream input_data log
   = match call_ollama cfg upstream (user_message input_data) default_system_message log with
     | (Return bot_response, log') => (Return (VDict [("bot_response", bot_response)]), log')
     | (Raise e, log') => (Raise (HTTPException 500 (str e)), log')
     end)
  /\ match (call_ollama cfg upstream (user_message input_data) default_system_message log).1 with
     | Return _ => True
     | Raise e => leaves_call_ollama e
     end
  /\ (forall status_code detail,
        str (HTTPException status_code detail) = pretty status_code +:+ ": " +:+ detail)
  /\ (let status := http_status (endpoint (chat_with_ai cfg upstream input_data) log).1 in
      status = 200 \/ status = 500)
  /\ (let status :=
        http_status (post_chat cfg upstream str_coercion validation_errors request_body log).1 in
      status = 200 \/ status = 500
      \/ (status = 422 /\ validate_ChatInput str_coercion request_body = None)).
Proof.
  assert (Hhandler : forall i,
    let status := http_status (endpoint (chat_with_ai cfg upstream i) log).1 in
    status = 200 \/ status = 500).
  { intros i. unfold endpoint. rewrite chat_with_ai_unfold.
    destruct (call_ollama _ _ _ _ log) as [[v|e] log']; cbn [fst respond]; [|cbn; auto].
    destruct (renderable _); cbn; auto. }
  split; [apply chat_with_ai_unfold|].
  split; [apply call_ollama_raises|].
  split; [reflexivity|].
  split; [apply Hhandler|].
  unfold post_chat.
  destruct (validate_ChatInput str_coercion request_body) as [i|].
  - destruct (Hhandler i) as [H|H]; cbn zeta in *; auto.
  - cbn. auto.
Qed.


(** C5.  For every string [s], also the empty one, handling the body
    [{"user_message": s}] adds exactly one call to the log of outbound
    POSTs, whatever the upstream answers: to [<OLLAMA_URL>/api/chat], with
    the payload of the configured model, the fixed system message, the
    user turn [s] unchanged and [stream] false. *)
Theorem chat_issues_one_post s log :
  (post_chat cfg upstream str_coercion validation_errors (chat_body s) log).2
  = log ++ [ {| post_url := OLLAMA_URL cfg +:+ "/api/chat";
                post_json :=
                  VDict [("model", VStr (OLLAMA_MODEL cfg));
                         ("messages",
                          VList [VDict [("role", VStr "system");
                                        ("content", VStr "You are a helpful assistant.")];
                                 VDict [("role", VStr "user");
                                        ("content", VStr s)]]);
                         ("stream", VBool false)];
                post_timeout := 60 |} ].
Proof. rewrite (post_chat_valid _ _ _ (validate_chat_body s)). reflexivity. Qed.

(** C8.  Every POST that [/chat] issues is handed to [requests.post] with
    [timeout=60]: for any request body, accepted or not, and from any
    state, the calls added to the log are the one call of [call_ollama]
    for an accepted body and none otherwise, and each carries the timeout
    60.  The same holds of [call_ollama] for every prompt and system
    message.  How long the call then takes is the business of requests,
    which raises a [Timeout], a [RequestException], when its limit
    passes. *)
Theorem chat_post_timeout (request_body : value) (prompt system_message : string) log :
  (post_chat cfg upstream str_coercion validation_errors request_body log).2
  = log ++ match validate_ChatInput str_coercion request_body with
           | Some input_data =>
               [ {| post_url := OLLAMA_URL cfg +:+ "/api/chat";
                    post_json :=
                      ollama_payload cfg (user_message input_data) default_system_message;
                    post_timeout := 60 |} ]
           | None => []
           end
  /\ (forall call,
        call ∈ (post_chat cfg upstream str_coercion validation_errors request_body log).2 ->
        call ∈ log \/ post_timeout call = 60)
  /\ (forall call,
        call ∈ (call_ollama cfg upstream prompt system_message log).2 ->
        call ∈ log \/ post_timeout call = 60).
Proof.
  assert (Hlog :
    (post_chat cfg upstream str_coercion validation_errors request_body log).2
    = log ++ match validate_ChatInput str_coercion request_body with
             | Some input_data =>
                 [ollama_call cfg (user_message input_data) default_system_message]
             | None => []
             end).
  { destruct (validate_ChatInput str_coercion request_body) as [input_data|] eqn:Hvalid.
    - by rewrite (post_chat_valid _ _ _ Hvalid).
    - unfold post_chat. rewrite Hvalid. cbn. by rewrite app_nil_r. }
  split; [exact Hlog|]. split.
  - intros call. rewrite Hlog. rewrite elem_of_app.
    intros [Hin|Hin]; [by left|right].
    destruct (validate_ChatInput str_coercion request_body); [|by apply elem_of_nil in Hin].
    apply list_elem_of_singleton in Hin as ->. reflexivity.
  - intros call. rewrite call_ollama_log. rewrite elem_of_app.
    intros [Hin|Hin]; [by left|right].
    apply list_elem_of_singleton in Hin as ->. reflexivity.
Qed.

(** C10.  A body in which [user_message] is missing is rejected by
    validation: the answer is the validation error, the handler does not
    run, and nothing is posted.  Whenever a body is accepted, the field is
    present in it, and it is a string when pydantic converts nothing.  A
    string is accepted as it is; the empty string passes and is forwarded
    as the user turn. *)
Theorem chat_requires_user_message items log :
  dict_get items "user_message" = None ->
  validate_ChatInput str_coercion (VDict items) = None
  /\ post_chat cfg upstream str_coercion validation_errors (VDict items) log
     = ({| http_status := 422;
           http_content := VDict [("detail", validation_errors (VDict items))] |}, log)
  /\ (forall request_body input_data,
        validate_ChatInput str_coercion request_body = Some input_data ->
        exists fields v,
          request_body = VDict fields /\ dict_get fields "user_message" = Some v)
  /\ (forall fields s,
        dict_get fields "user_message" = Some (VStr s) ->
        validate_ChatInput str_coercion (VDict fields) = Some {| user_message := s |})
  /\ ((forall v, str_coercion v = None) ->
      forall fields input_data,
        validate_ChatInput str_coercion (VDict fields) = Some input_data ->
        dict_get fields "user_message" = Some (VStr (user_message input_data)))
  /\ validate_ChatInput str_coercion (chat_body "") = Some {| user_message := "" |}
  /\ (post_chat cfg upstream str_coercion validation_errors (chat_body "") log).2
     = log ++ [ollama_call cfg "" default_system_message]
  /\ post_json (ollama_call cfg "" default_system_message)
     = VDict [("model", VStr (OLLAMA_MODEL cfg));
              ("messages",
               VList [VDict [("role", VStr "system");
                             ("content", VStr "You are a helpful assistant.")];
                      VDict [("role", VStr "user"); ("content", VStr "")]]);
              ("stream", VBool false)].
Proof.
  intros Hmissing.
  assert (Hnone : validate_ChatInput str_coercion (VDict items) = None).
  { unfold validate_ChatInput. by rewrite Hmissing. }
  split; [exact Hnone|].
  split; [unfold post_chat; by rewrite Hnone|].
  split.
  { intros request_body input_data Hvalid. unfold validate_ChatInput in Hvalid.
    destruct request_body as [| | | | |xs|fields]; try discriminate.
    destruct (dict_get fields "user_message") as [v|] eqn:Hv; [|discriminate].
    by exists fields, v. }
  split.
  { intros fields s Hs. unfold validate_ChatInput. by rewrite Hs. }
  split.
  { intros Hstrict fields input_data Hvalid. unfold validate_ChatInput in Hvalid.
    destruct (dict_get fields "user_message") as [v|]; [|discriminate].
    destruct v; try (rewrite Hstrict in Hvalid; discriminate).
    by injection Hvalid as <-. }
  split; [reflexivity|].
  split; [|reflexivity].
  by rewrite (post_chat_valid _ _ _ (validate_chat_body "")).
Qed.

End ChatEndpoint.

(** ** The health check and the configuration *)


(** The value a variable has after [load_dotenv]: the process environment
    first, then the [.env] file, then the default. *)
Lemma getenv_load_dotenv (dotenv environ : gmap string string) (key default : string) :
  getenv (load_dotenv dotenv environ) key default
  = match environ !! key with
    | Some v => v
    | None => match dotenv !! key with
              | Some v => v
              | None => default
              end
    end.
Proof.
  unfold getenv, load_dotenv. rewrite lookup_union.
  destruct (environ !! key), (dotenv !! key); reflexivity.
Qed.

(** C7.  The configuration is computed once, from the environment at
    start-up, and the handlers read nothing but that record.  With no
    variable set the record holds the two defaults, and each field is the
    variable's value when it is set.  If [OLLAMA_MODEL] is [llama3] in the
    environment, the health check reports ["model": "llama3"] and the
    payload of the POST that a chat request issues has ["model":
    "llama3"]. *)
Theorem model_override (dotenv environ : gmap string string)
    (upstream : post_call -> post_result) (input_data : ChatInput) (log : list post_call) :
  environ !! "OLLAMA_MODEL" = Some "llama3" ->
  let cfg := module_config dotenv environ in
  module_config ∅ ∅ = {| OLLAMA_URL := "http://localhost:11434"; OLLAMA_MODEL := "qwen2.5" |}
  /\ OLLAMA_URL cfg
     = match environ !! "OLLAMA_URL" with
       | Some v => v
       | None => match dotenv !! "OLLAMA_URL" with
                 | Some v => v
                 | None => "http://localhost:11434"
                 end
       end
  /\ OLLAMA_MODEL cfg = "llama3"
  /\ health_check cfg log
     = (Return (VDict [("status", VStr "ok");
                       ("model", VStr "llama3");
                       ("ollama_url", VStr (OLLAMA_URL cfg))]), log)
  /\ (chat_with_ai cfg upstream input_data log).2
     = log ++ [ {| post_url := OLLAMA_URL cfg +:+ "/api/chat";
                   post_json :=
                     VDict [("model", VStr "llama3");
                            ("messages",
                             VList [VDict [("role", VStr "system");
                                           ("content", VStr "You are a helpful assistant.")];
                                    VDict [("role", VStr "user");
                                           ("content", VStr (user_message input_data))]]);
                            ("stream", VBool false)];
                   post_timeout := 60 |} ].
Proof.
  intros Hmodel cfg.
  assert (Hm : OLLAMA_MODEL cfg = "llama3").
  { unfold cfg, module_config. cbn [OLLAMA_MODEL].
    rewrite getenv_load_dotenv. by rewrite Hmodel. }
  split; [reflexivity|].
  split; [unfold cfg, module_config; cbn [OLLAMA_URL]; apply getenv_load_dotenv|].
  split; [exact Hm|].
  split; [unfold health_check, ret; by rewrite Hm|].
  rewrite chat_with_ai_log. unfold ollama_call, ollama_payload. by rewrite Hm.
Qed.

(** ** The cross-origin policy *)

Section Headers.

Import CORS.

Implicit Types (hs : headers) (name other v : string).

Lemma header_get_del_ne hs name other :
  name <> other -> header_get (header_del hs name) other = header_get hs other.
Proof.
  intros Hne. induction hs as [|[k w] rest IH]; [reflexivity|].
  cbn [header_del header_get].
  destruct (String.eqb_spec k name) as [->|Hk].
  - rewrite IH. destruct (String.eqb_spec name other); [contradiction|reflexivity].
  - cbn [header_get]. by rewrite IH.
Qed.

Lemma header_get_set_eq hs name v :
  header_get (header_set hs name v) name = Some v.
Proof.
  induction hs as [|[k w] rest IH]; cbn [header_set header_get].
  - by rewrite String.eqb_refl.
  - destruct (String.eqb_spec k name) as [->|Hk]; cbn [header_get].
    + by rewrite String.eqb_refl.
    + destruct (String.eqb_spec k name); [contradiction|exact IH].
Qed.

Lemma header_get_set_ne hs name other v :
  name <> other -> header_get (header_set hs name v) other = header_get hs other.
Proof.
  intros Hne. induction hs as [|[k w] rest IH]; cbn [header_set header_get].
  - destruct (String.eqb_spec name other); [contradiction|reflexivity].
  - destruct (String.eqb_spec k name) as [->|Hk]; cbn [header_get].
    + destruct (String.eqb_spec name other); [contradiction|].
      by apply header_get_del_ne.
    + by rewrite IH.
Qed.

Lemma header_get_add_vary_ne hs other v :
  "vary" <> other -> header_get (add_vary_header hs v) other = header_get hs other.
Proof.
  intros Hne. unfold add_vary_header.
  destruct (header_get hs "vary"); by apply header_get_set_ne.
Qed.

Lemma contains_spec (xs : list string) (x : string) :
  contains xs x = true <-> x ∈ xs.
Proof.
  unfold contains. rewrite existsb_exists. split.
  - intros (y & Hy & Heq). apply String.eqb_eq in Heq as ->. by apply list_elem_of_In.
  - intros Hin. exists x. split; [by apply list_elem_of_In|apply String.eqb_refl].
Qed.

End Headers.

(** The two origins of the allow-list. *)
Lemma is_allowed_origin_app (origin : string) :
  CORS.is_allowed_origin app_cors origin = true
  <-> origin = "http://localhost:5173" \/ origin = "http://localhost:3000".
Proof.
  change (CORS.is_allowed_origin app_cors origin) with (CORS.contains origins origin).
  rewrite contains_spec. unfold origins. rewrite !elem_of_cons.
  split; [intros [?|[?|H]]; auto; by apply elem_of_nil in H|intros [?|?]; auto].
Qed.

(** [send] under the options of [main.py]. *)
Lemma send_app (hs : CORS.headers) (origin : string) (has_cookie : bool) :
  CORS.send app_cors hs origin has_cookie
  = let hs1 := CORS.header_set hs "access-control-allow-credentials" "true" in
    if CORS.is_allowed_origin app_cors origin
    then CORS.allow_explicit_origin hs1 origin else hs1.
Proof. reflexivity. Qed.

Lemma send_allow_origin_eq (hs : CORS.headers) (origin : string) (has_cookie allowed : bool) :
  CORS.is_allowed_origin app_cors origin = allowed ->
  CORS.header_get (CORS.send app_cors hs origin has_cookie) "access-control-allow-origin"
  = if allowed then Some origin else CORS.header_get hs "access-control-allow-origin".
Proof.
  intros <-. rewrite send_app. cbn zeta.
  destruct (CORS.is_allowed_origin app_cors origin).
  - unfold CORS.allow_explicit_origin.
    rewrite header_get_add_vary_ne by done. apply header_get_set_eq.
  - by apply header_get_set_ne.
Qed.

Lemma send_allow_credentials (hs : CORS.headers) (origin : string) (has_cookie : bool) :
  CORS.header_get (CORS.send app_cors hs origin has_cookie) "access-control-allow-credentials"
  = Some "true".
Proof.
  rewrite send_app. cbn zeta.
  destruct (CORS.is_allowed_origin app_cors origin).
  - unfold CORS.allow_explicit_origin.
    rewrite header_get_add_vary_ne by done.
    rewrite header_get_set_ne by done. apply header_get_set_eq.
  - apply header_get_set_eq.
Qed.

(** The answer to a preflight under the options of [main.py], with the
    wildcards resolved. *)
Lemma preflight_response_app (origin requested_method : string)
    (requested_headers : option string) :
  CORS.preflight_response app_cors origin requested_method requested_headers
  = let allowed := CORS.is_allowed_origin app_cors origin in
    let hs0 := [("vary", "Origin");
                ("access-control-allow-methods",
                 "DELETE, GET, HEAD, OPTIONS, PATCH, POST, PUT");
                ("access-control-max-age", "600");
                ("access-control-allow-credentials", "true")] in
    let hs1 := if allowed then hs0 ++ [("access-control-allow-origin", origin)] else hs0 in
    let hs2 := match requested_headers with
               | Some requested => hs1 ++ [("access-control-allow-headers", requested)]
               | None => hs1
               end in
    let failures :=
      (if allowed then [] else ["origin"])
      ++ (if CORS.contains ["DELETE"; "GET"; "HEAD"; "OPTIONS"; "PATCH"; "POST"; "PUT"]
               requested_method
          then [] else ["method"]) in
    match failures with
    | [] => {| CORS.preflight_status := 200; CORS.preflight_text := "OK";
               CORS.preflight_response_headers := hs2 |}
    | _ => {| CORS.preflight_status := 400;
              CORS.preflight_text := "Disallowed CORS " +:+ String.concat ", " failures;
              CORS.preflight_response_headers := hs2 |}
    end.
Proof.
  unfold CORS.preflight_response.
  change (CORS.methods app_cors)
    with ["DELETE"; "GET"; "HEAD"; "OPTIONS"; "PATCH"; "POST"; "PUT"].
  change (CORS.allow_all_headers app_cors) with true.
  change (CORS.preflight_explicit_allow_origin app_cors) with true.
  cbn zeta.
  destruct (CORS.is_allowed_origin app_cors origin),
    (CORS.contains ["DELETE"; "GET"; "HEAD"; "OPTIONS"; "PATCH"; "POST"; "PUT"]
       requested_method),
    requested_headers; reflexivity.
Qed.



(** ** Concrete runs *)

(** Connection refused: the client of [/chat] sees 500, not 503. *)
Lemma chat_connection_refused :
  upstream_failure (refuse_connection (ollama_call default_config "hi" default_system_message))
    "Connection refused"
  /\ post_chat default_config refuse_connection strict_str field_required (chat_body "hi") []
     = ({| http_status := 500;
           http_content :=
             VDict [("detail",
                     VStr "503: Ollama service unavailable: Connection refused")] |},
        [hi_call]).
Proof.
  assert (H : upstream_failure
                (refuse_connection (ollama_call default_config "hi" default_system_message))
                "Connection refused") by constructor.
  split; [exact H|].
  exact (proj2 (chat_upstream_failure_answers_500 default_config refuse_connection
                  strict_str field_required "hi" [] "Connection refused" H)).
Defined.

(** The upstream answers [{"foo": "bar"}]: the client sees 500, not 502. *)
Lemma chat_foo_bar :
  missing_field (VDict [("foo", VStr "bar")]) "message"
  /\ post_chat default_config (answer_json (VDict [("foo", VStr "bar")]))
       strict_str field_required (chat_body "hi") []
     = ({| http_status := 500;
           http_content :=
             VDict [("detail",
                     VStr "502: Unexpected response format from Ollama: 'message'")] |},
        [hi_call]).
Proof.
  assert (H : missing_field (VDict [("foo", VStr "bar")]) "message")
    by (constructor; reflexivity).
  split; [exact H|].
  refine (proj2 (chat_missing_field_answers_500 default_config
                   (answer_json (VDict [("foo", VStr "bar")])) strict_str field_required
                   "hi" [] _ _ "message" eq_refl _ eq_refl H)).
  cbn. lia.
Defined.


(** A body without [user_message] is answered 422 and nothing is posted. *)
Lemma chat_without_user_message :
  dict_get [("foo", VStr "bar")] "user_message" = None
  /\ post_chat default_config refuse_connection strict_str field_required
       (VDict [("foo", VStr "bar")]) []
     = ({| http_status := 422;
           http_content :=
             VDict [("detail", field_required (VDict [("foo", VStr "bar")]))] |}, []).
Proof.
  assert (H : dict_get [("foo", VStr "bar")] "user_message" = None) by reflexivity.
  split; [exact H|].
  exact (proj1 (proj2 (chat_requires_user_message default_config refuse_connection
                         strict_str field_required [("foo", VStr "bar")] [] H))).
Defined.

(** Started with [OLLAMA_MODEL=llama3]. *)
Lemma health_check_llama3 :
  llama3_environ !! "OLLAMA_MODEL" = Some "llama3"
  /\ health_check (module_config ∅ llama3_environ) []
     = (Return (VDict [("status", VStr "ok");
                       ("model", VStr "llama3");
                       ("ollama_url", VStr "http://localhost:11434")]), []).
Proof.
  assert (H : llama3_environ !! "OLLAMA_MODEL" = Some "llama3") by reflexivity.
  split; [exact H|].
  exact (proj1 (proj2 (proj2 (proj2
           (model_override ∅ llama3_environ refuse_connection
              {| user_message := "hi" |} [] H))))).
Defined.

(** * Further properties of the code *)

(** ** What else [call_ollama] and [/chat] do with the upstream's answer *)

Section UpstreamAnswers.

Variable cfg : config.
Variable upstream : post_call -> post_result.
Variable str_coercion : value -> option string.
Variable validation_errors : value -> value.

Implicit Types (s : string) (log : list post_call).

(** The reply object can be rendered exactly when its content can. *)
Lemma renderable_bot_response (bot_response : value) :
  renderable (VDict [("bot_response", bot_response)]) = renderable bot_response.
Proof. cbn. apply andb_true_r. Qed.

(** The response to an accepted body, from what [call_ollama] does. *)
Lemma post_chat_from_call s log o :
  call_ollama cfg upstream s default_system_message log
  = (o, log ++ [ollama_call cfg s default_system_message]) ->
  post_chat cfg upstream str_coercion validation_errors (chat_body s) log
  = (match o with
     | Return bot_response =>
         if renderable bot_response
         then {| http_status := 200;
                 http_content := VDict [("bot_response", bot_response)] |}
         else {| http_status := 500; http_content := VStr "Internal Server Error" |}
     | Raise e =>
         {| http_status := 500; http_content := VDict [("detail", VStr (str e))] |}
     end,
     log ++ [ollama_call cfg s default_system_message]).
Proof.
  intros Hcall. rewrite (post_chat_valid _ _ _ _ _ _ _ (validate_chat_body _ s)).
  rewrite chat_with_ai_unfold. cbn [user_message]. rewrite Hcall.
  destruct o as [bot_response|e]; [|reflexivity].
  cbn [fst respond]. rewrite renderable_bot_response. reflexivity.
Qed.


(** X2.  When the upstream answers 2xx with JSON that is not an object, or
    whose [message] is not an object, the subscript raises a [TypeError].
    Neither [except] clause of [call_ollama] matches it, so no 502 is
    built: the [TypeError] leaves [call_ollama] and [/chat] answers 500 with
    the interpreter's message as detail. *)
Theorem chat_non_dict_answer s log r result :
  upstream (ollama_call cfg s default_system_message) = Responded r ->
  200 <= status_code r < 300 ->
  body r = JSON result ->
  subscripts_non_dict result ->
  exists text,
    call_ollama cfg upstream s default_system_message log
    = (Raise (TypeError text), log ++ [ollama_call cfg s default_system_message])
    /\ post_chat cfg upstream str_coercion validation_errors (chat_body s) log
       = ({| http_status := 500; http_content := VDict [("detail", VStr text)] |},
          log ++ [ollama_call cfg s default_system_message]).
Proof.
  intros Hup Hst Hbody Hshape.
  assert (exists text,
    call_ollama cfg upstream s default_system_message log
    = (Raise (TypeError text), log ++ [ollama_call cfg s default_system_message]))
    as [text Hcall].
  { rewrite (call_ollama_responded _ _ _ _ _ _ Hup).
    unfold try_except, bind. rewrite raise_for_status_ok by lia.
    unfold response_json. rewrite Hbody. unfold ret, getitem, raise.
    destruct Hshape as [result Hd|items message Hm Hd].
    - destruct result; try discriminate; eauto.
    - rewrite Hm. unfold ret. destruct message; try discriminate; eauto. }
  exists text. split; [exact Hcall|]. by rewrite (post_chat_from_call _ _ _ Hcall).
Qed.

(** X3.  A 2xx answer whose body is not JSON makes [response.json()] raise
    a [RequestException]; the first [except] clause takes it, so the
    failure is reported as "Ollama service unavailable" with the decoder's
    message, and [/chat] answers 500 with that 503 text as detail. *)
Theorem chat_body_not_json s log r text :
  upstream (ollama_call cfg s default_system_message) = Responded r ->
  200 <= status_code r < 300 ->
  body r = NotJSON text ->
  call_ollama cfg upstream s default_system_message log
  = (Raise (HTTPException 503 ("Ollama service unavailable: " +:+ text)),
     log ++ [ollama_call cfg s default_system_message])
  /\ post_chat cfg upstream str_coercion validation_errors (chat_body s) log
     = ({| http_status := 500;
           http_content :=
             VDict [("detail", VStr ("503: Ollama service unavailable: " +:+ text))] |},
        log ++ [ollama_call cfg s default_system_message]).
Proof.
  intros Hup Hst Hbody.
  assert (Hcall : call_ollama cfg upstream s default_system_message log
                  = (Raise (HTTPException 503 ("Ollama service unavailable: " +:+ text)),
                     log ++ [ollama_call cfg s default_system_message])).
  { rewrite (call_ollama_responded _ _ _ _ _ _ Hup).
    unfold try_except, bind. rewrite raise_for_status_ok by lia.
    unfold response_json. rewrite Hbody. reflexivity. }
  split; [exact Hcall|]. by rewrite (post_chat_from_call _ _ _ Hcall).
Qed.


(** X5.  For a well-formed body, the status code alone decides: the call
    succeeds exactly when the status is outside 400..599.  A status such as
    302 or 199 is not an error for [call_ollama], and 400 and 599 are. *)
Theorem call_ollama_succeeds_iff s system_message log r items fields (c : value) :
  upstream (ollama_call cfg s system_message) = Responded r ->
  body r = JSON (VDict items) ->
  dict_get items "message" = Some (VDict fields) ->
  dict_get fields "content" = Some c ->
  (call_ollama cfg upstream s system_message log).1 = Return c
  <-> (status_code r < 400 \/ 600 <= status_code r).
Proof.
  intros Hup Hbody Hm Hc. rewrite (call_ollama_responded _ _ _ _ _ _ Hup).
  split.
  - intros Hret.
    destruct (decide (status_code r < 400 \/ 600 <= status_code r)) as [|Hn]; [done|].
    exfalso. revert Hret.
    unfold try_except, bind, raise_for_status, raise.
    destruct (Z.ltb_spec (status_code r) 500); status_tests; discriminate.
  - intros Hst. unfold try_except, bind. rewrite raise_for_status_ok by exact Hst.
    unfold response_json. rewrite Hbody. unfold ret, getitem.
    rewrite Hm. unfold ret. rewrite Hc. reflexivity.
Qed.

(** X6.  Fields of the request body other than [user_message] play no
    part: a body that carries the string [s] there is handled exactly as
    [{"user_message": s}]. *)
Theorem chat_ignores_other_fields items s log :
  dict_get items "user_message" = Some (VStr s) ->
  post_chat cfg upstream str_coercion validation_errors (VDict items) log
  = post_chat cfg upstream str_coercion validation_errors (chat_body s) log.
Proof.
  intros Hs.
  assert (Hvalid : validate_ChatInput str_coercion (VDict items)
                   = Some {| user_message := s |}).
  { unfold validate_ChatInput. by rewrite Hs. }
  rewrite (post_chat_valid _ _ _ _ _ _ _ Hvalid).
  by rewrite (post_chat_valid _ _ _ _ _ _ _ (validate_chat_body _ s)).
Qed.


End UpstreamAnswers.

(** ** Requests in sequence *)

Section Sessions.

Variable cfg : config.
Variable upstream : post_call -> post_result.
Variable str_coercion : value -> option string.
Variable validation_errors : value -> value.

Implicit Types (s : string) (log : list post_call).

(** [call_ollama] does not read the log: what it returns is what it would
    return on an empty log. *)
Lemma call_ollama_frame s system_message log :
  call_ollama cfg upstream s system_message log
  = ((call_ollama cfg upstream s system_message []).1,
     log ++ [ollama_call cfg s system_message]).
Proof.
  unfold call_ollama, try_except, bind, requests_post, raise_for_status,
    response_json, getitem, raise, ret.
  fold (ollama_call cfg s system_message).
  destruct (upstream _) as [text|text|key|r]; [reflexivity..|].
  destruct (_ && _); [reflexivity|].
  destruct (_ && _); [reflexivity|].
  destruct (body r) as [text|result]; [reflexivity|].
  destruct result; try reflexivity.
  destruct (dict_get _ _) as [message|]; [|reflexivity].
  destruct message; try reflexivity.
  destruct (dict_get _ _); reflexivity.
Qed.

Lemma post_chat_frame s log :
  post_chat cfg upstream str_coercion validation_errors (chat_body s) log
  = ((post_chat cfg upstream str_coercion validation_errors (chat_body s) []).1,
     log ++ [ollama_call cfg s default_system_message]).
Proof.
  rewrite !(post_chat_valid _ _ _ _ _ _ _ (validate_chat_body _ s)).
  rewrite !chat_with_ai_unfold. cbn [user_message fst].
  rewrite (call_ollama_frame s default_system_message log).
  destruct (call_ollama _ _ _ _ []) as [[v|e] log']; reflexivity.
Qed.

(** X7.  The service keeps nothing between requests.  A session of chat
    messages posts one call per message, in order, and each payload holds
    the fixed system message and that one message only: nothing of an
    earlier turn or answer is sent again.  Each answer is the one the
    message would get as the first request, so a failed request changes
    nothing for the next ones. *)
Theorem session_has_no_history (messages : list string) log :
  session
    (map (fun s => post_chat cfg upstream str_coercion validation_errors (chat_body s))
         messages) log
  = (map (fun s =>
            (post_chat cfg upstream str_coercion validation_errors (chat_body s) []).1)
         messages,
     log ++ map (fun s =>
                   {| post_url := OLLAMA_URL cfg +:+ "/api/chat";
                      post_json :=
                        VDict [("model", VStr (OLLAMA_MODEL cfg));
                               ("messages",
                                VList [VDict [("role", VStr "system");
                                              ("content", VStr "You are a helpful assistant.")];
                                       VDict [("role", VStr "user");
                                              ("content", VStr s)]]);
                               ("stream", VBool false)];
                      post_timeout := 60 |})
                messages).
Proof.
  revert log. induction messages as [|s rest IH]; intros log.
  - cbn. by rewrite app_nil_r.
  - cbn [map session]. rewrite (post_chat_frame s log). rewrite IH.
    cbn [map]. rewrite <- app_assoc. reflexivity.
Qed.

End Sessions.

(** ** More on the configuration *)

(** X8.  Either variable, when it is set in the process environment, is
    used as it is, whatever the [.env] file says and whatever the value
    (the default stands in for an unset variable only).  The base URL is
    not normalised: [requests.post] is called with the value followed by
    [/api/chat], so a value ending in a slash gives a double slash.  The
    model name goes into the payload as it is.  The health check reports
    both values. *)
Theorem environment_used_verbatim (dotenv environ : gmap string string)
    (upstream : post_call -> post_result) (input_data : ChatInput)
    (log : list post_call) :
  let cfg := module_config dotenv environ in
  (forall u,
     environ !! "OLLAMA_URL" = Some u ->
     OLLAMA_URL cfg = u
     /\ (exists call,
           (chat_with_ai cfg upstream input_data log).2 = log ++ [call]
           /\ post_url call = u +:+ "/api/chat")
     /\ health_check cfg log
        = (Return (VDict [("status", VStr "ok");
                          ("model", VStr (OLLAMA_MODEL cfg));
                          ("ollama_url", VStr u)]), log))
  /\ (forall m,
        environ !! "OLLAMA_MODEL" = Some m ->
        OLLAMA_MODEL cfg = m
        /\ (exists call rest,
              (chat_with_ai cfg upstream input_data log).2 = log ++ [call]
              /\ post_json call = VDict (("model", VStr m) :: rest))
        /\ health_check cfg log
           = (Return (VDict [("status", VStr "ok");
                             ("model", VStr m);
                             ("ollama_url", VStr (OLLAMA_URL cfg))]), log)).
Proof.
  intros cfg. split.
  - intros u Hurl.
    assert (Hu : OLLAMA_URL cfg = u).
    { unfold cfg, module_config. cbn [OLLAMA_URL].
      rewrite getenv_load_dotenv. by rewrite Hurl. }
    split; [exact Hu|]. split.
    + exists (ollama_call cfg (user_message input_data) default_system_message).
      split; [apply chat_with_ai_log|]. unfold ollama_call. cbn [post_url]. by rewrite Hu.
    + unfold health_check, ret. by rewrite Hu.
  - intros m Hmodel.
    assert (Hm : OLLAMA_MODEL cfg = m).
    { unfold cfg, module_config. cbn [OLLAMA_MODEL].
      rewrite getenv_load_dotenv. by rewrite Hmodel. }
    split; [exact Hm|]. split.
    + eexists (ollama_call cfg (user_message input_data) default_system_message), _.
      split; [apply chat_with_ai_log|].
      unfold ollama_call, ollama_payload. cbn [post_json]. rewrite Hm. reflexivity.
    + unfold health_check, ret. by rewrite Hm.
Qed.

(** X9.  What [load_dotenv()] adds: a variable that the process
    environment does not set takes its value from the [.env] file, not the
    default.  With [OLLAMA_MODEL=m] only in [.env], the health check
    reports [m] and the payload of every chat carries ["model": m]. *)
Theorem dotenv_supplies_model (dotenv environ : gmap string string)
    (upstream : post_call -> post_result) (input_data : ChatInput)
    (log : list post_call) (m : string) :
  environ !! "OLLAMA_MODEL" = None ->
  dotenv !! "OLLAMA_MODEL" = Some m ->
  let cfg := module_config dotenv environ in
  OLLAMA_MODEL cfg = m
  /\ (exists call rest,
        (chat_with_ai cfg upstream input_data log).2 = log ++ [call]
        /\ post_json call = VDict (("model", VStr m) :: rest))
  /\ health_check cfg log
     = (Return (VDict [("status", VStr "ok");
                       ("model", VStr m);
                       ("ollama_url", VStr (OLLAMA_URL cfg))]), log).
Proof.
  intros Henv Hfile cfg.
  assert (Hm : OLLAMA_MODEL cfg = m).
  { unfold cfg, module_config. cbn [OLLAMA_MODEL].
    rewrite getenv_load_dotenv. by rewrite Henv, Hfile. }
  split; [exact Hm|]. split.
  - eexists (ollama_call cfg (user_message input_data) default_system_message), _.
    split; [apply chat_with_ai_log|].
    unfold ollama_call, ollama_payload. cbn [post_json]. rewrite Hm. reflexivity.
  - unfold health_check, ret. by rewrite Hm.
Qed.

(** ** The routes behind the middleware *)

(** [send] under the options of [main.py]: the origin is echoed exactly
    when it is on the allow-list. *)
Lemma send_allow_origin (hs : CORS.headers) (origin : string) (has_cookie : bool) :
  CORS.header_get (CORS.send app_cors hs origin has_cookie) "access-control-allow-origin"
  = if CORS.is_allowed_origin app_cors origin then Some origin
    else CORS.header_get hs "access-control-allow-origin".
Proof.
  change (CORS.send app_cors hs origin has_cookie)
    with (let hs1 := CORS.header_set hs "access-control-allow-credentials" "true" in
          if CORS.is_allowed_origin app_cors origin
          then CORS.allow_explicit_origin hs1 origin else hs1).
  cbn zeta. destruct (CORS.is_allowed_origin app_cors origin).
  - unfold CORS.allow_explicit_origin.
    rewrite header_get_add_vary_ne by done. apply header_get_set_eq.
  - by apply header_get_set_ne.
Qed.


(** ** Concrete runs of the further properties *)


(** The upstream answers [{"message": "Hello!"}]: the message is a string,
    not an object. *)
Lemma chat_message_is_string :
  subscripts_non_dict (VDict [("message", VStr "Hello!")])
  /\ exists text,
       call_ollama default_config (answer_json (VDict [("message", VStr "Hello!")]))
         "hi" default_system_message []
       = (Raise (TypeError text), [hi_call])
       /\ post_chat default_config (answer_json (VDict [("message", VStr "Hello!")]))
            strict_str field_required (chat_body "hi") []
          = ({| http_status := 500; http_content := VDict [("detail", VStr text)] |},
             [hi_call]).
Proof.
  assert (H : subscripts_non_dict (VDict [("message", VStr "Hello!")])).
  { apply (message_not_dict _ (VStr "Hello!")); reflexivity. }
  split; [exact H|].
  refine (chat_non_dict_answer default_config
            (answer_json (VDict [("message", VStr "Hello!")])) strict_str field_required
            "hi" [] _ _ eq_refl _ eq_refl H).
  cbn. lia.
Defined.

(** The upstream answers 200 with an HTML page. *)
Lemma chat_html_answer :
  post_chat default_config answer_html strict_str field_required (chat_body "hi") []
  = ({| http_status := 500;
        http_content :=
          VDict [("detail",
                  VStr "503: Ollama service unavailable: Expecting value: line 1 column 1 (char 0)")] |},
     [hi_call]).
Proof.
  refine (proj2 (chat_body_not_json default_config answer_html strict_str field_required
                   "hi" [] _ _ eq_refl _ eq_refl)).
  cbn. lia.
Defined.


(** A 302 with a well-formed body counts as success. *)
Lemma call_ollama_302 :
  (call_ollama default_config
     (answer_status_json 302 (VDict [("message", VDict [("content", VStr "Hello!")])]))
     "hi" default_system_message []).1
  = Return (VStr "Hello!").
Proof.
  refine (proj2 (call_ollama_succeeds_iff default_config
                   (answer_status_json 302
                      (VDict [("message", VDict [("content", VStr "Hello!")])]))
                   "hi" default_system_message [] _ _ _ (VStr "Hello!")
                   eq_refl eq_refl eq_refl eq_refl) _).
  left. cbn. lia.
Defined.

(** A body with a second field. *)
Lemma chat_with_session_id :
  dict_get [("session", VInt 7); ("user_message", VStr "hi")] "user_message"
  = Some (VStr "hi")
  /\ post_chat default_config refuse_connection strict_str field_required
       (VDict [("session", VInt 7); ("user_message", VStr "hi")]) []
     = post_chat default_config refuse_connection strict_str field_required
         (chat_body "hi") [].
Proof.
  split; [reflexivity|].
  exact (chat_ignores_other_fields default_config refuse_connection strict_str
           field_required [("session", VInt 7); ("user_message", VStr "hi")] "hi" []
           eq_refl).
Defined.

(** Both variables set in the environment, with a [.env] file that sets
    them otherwise. *)
Lemma environment_beats_dotenv :
  (server_environ !! "OLLAMA_URL" = Some "http://gpu-box:11434/"
   /\ server_environ !! "OLLAMA_MODEL" = Some "phi3")
  /\ (chat_with_ai (module_config dotenv_file server_environ) refuse_connection
        {| user_message := "hi" |} []).2
     = [ {| post_url := "http://gpu-box:11434//api/chat";
            post_json :=
              VDict [("model", VStr "phi3");
                     ("messages",
                      VList [VDict [("role", VStr "system");
                                    ("content", VStr "You are a helpful assistant.")];
                             VDict [("role", VStr "user"); ("content", VStr "hi")]]);
                     ("stream", VBool false)];
            post_timeout := 60 |} ]
  /\ health_check (module_config dotenv_file server_environ) []
     = (Return (VDict [("status", VStr "ok");
                       ("model", VStr "phi3");
                       ("ollama_url", VStr "http://gpu-box:11434/")]), []).
Proof.
  assert (H1 : server_environ !! "OLLAMA_URL" = Some "http://gpu-box:11434/")
    by reflexivity.
  assert (H2 : server_environ !! "OLLAMA_MODEL" = Some "phi3") by reflexivity.
  split; [by split|].
  pose proof (environment_used_verbatim dotenv_file server_environ refuse_connection
                {| user_message := "hi" |} []) as [Hurl Hmodel].
  destruct (Hurl _ H1) as (Hu & _ & _).
  destruct (Hmodel _ H2) as (Hm & _ & Hhealth).
  split.
  - rewrite chat_with_ai_log. unfold ollama_call, ollama_payload. cbn [user_message].
    rewrite Hu, Hm. reflexivity.
  - rewrite Hhealth. by rewrite Hu.
Defined.

(** The model named in [.env] only. *)
Lemma model_from_dotenv :
  (∅ : gmap string string) !! "OLLAMA_MODEL" = None
  /\ dotenv_file !! "OLLAMA_MODEL" = Some "mistral"
  /\ health_check (module_config dotenv_file ∅) []
     = (Return (VDict [("status", VStr "ok");
                       ("model", VStr "mistral");
                       ("ollama_url", VStr "http://ollama:11434")]), []).
Proof.
  assert (H1 : (∅ : gmap string string) !! "OLLAMA_MODEL" = None) by reflexivity.
  assert (H2 : dotenv_file !! "OLLAMA_MODEL" = Some "mistral") by reflexivity.
  split; [exact H1|]. split; [exact H2|].
  exact (proj2 (proj2 (dotenv_supplies_model dotenv_file ∅ refuse_connection
                         {| user_message := "hi" |} [] "mistral" H1 H2))).
Defined.

